(** * Console calculator (calculator.py): a shallow embedding and its properties

    The program is a read-evaluate-print loop.  [calculate] dispatches on an
    operator string and computes on two Python floats; [main] reads lines from
    standard input, recognises the exit keywords, tokenizes, converts the
    operands with [float()], calls [calculate] and prints either the result or
    a message chosen by the class of the exception that was raised.

    Modelling choices.
    - A Python [float] is an IEEE 754 binary64 number: Rocq's primitive
      [float], with its native [add], [sub], [mul], [div] and [eqb].
    - A Python [str] is a [string] whose characters are the code points
      0..255 (the Latin-1 range of Unicode).  Every builtin used by the
      program ([str.strip], [str.lower], [str.split], [repr], [float]) is
      written out for exactly these code points, after what CPython 3 does:
      [float] rounds a decimal literal correctly (nearest, ties to even) and
      [repr] of a float writes the shortest digits that read back.
    - Exceptions are values of an error monad ([result]); the [try] block of
      [main] is a computation in that monad and the [except] clauses are a
      total function on exceptions.
    - Standard input is the finite list of the lines still to be read; reading
      past its end raises [EOFError], as [input()] does.  Standard output is
      the list of the writes performed, prompts and printed lines. *)

From Stdlib Require Import Bool List String Ascii NArith ZArith Lia.
From Stdlib Require Import PrimFloat FloatOps SpecFloat.
Import ListNotations.

Local Open Scope string_scope.

(** ** Exceptions and the error monad *)

(** The exception classes that matter to the program's [except] clauses.
    [EOFError] and [OverflowError] are subclasses of [Exception] that are
    neither a [ValueError] nor a [ZeroDivisionError].  Each exception carries
    its single argument, which is also what [str(e)] returns. *)
Inductive exception : Type :=
| ValueError (msg : string)
| ZeroDivisionError (msg : string)
| OverflowError (msg : string)
| EOFError (msg : string).

Definition str_of_exception (e : exception) : string :=
  match e with
  | ValueError m | ZeroDivisionError m | OverflowError m | EOFError m => m
  end.

Inductive result (A : Type) : Type :=
| Return (a : A)
| Raise (e : exception).

Arguments Return {A} a.
Arguments Raise {A} e.

Definition bind {A B : Type} (c : result A) (k : A -> result B) : result B :=
  match c with
  | Return a => k a
  | Raise e => Raise e
  end.

Notation "x <- c ;; k" := (bind c (fun x => k))
  (at level 61, c at next level, right associativity).
Notation "' p <- c ;; k" := (bind c (fun x => let 'p := x in k))
  (at level 61, p pattern, c at next level, right associativity).

(** ** Python strings over the code points 0..255 *)

Module PyStr.

Definition code (c : ascii) : N := N_of_ascii c.

Definition in_range (lo hi : N) (c : ascii) : bool :=
  ((lo <=? code c) && (code c <=? hi))%N.

(** [str.isspace] on one character: the code points 9..13, 28..32, 133
    (NEL) and 160 (no-break space). *)
Definition isspace (c : ascii) : bool :=
  in_range 9 13 c || in_range 28 32 c || (code c =? 133)%N || (code c =? 160)%N.

(** [str.lower] on one character: A..Z and the capital letters 192..222 of
    Latin-1 (215, the multiplication sign, is not a letter) move up by 32. *)
Definition lower_char (c : ascii) : ascii :=
  if in_range 65 90 c || (in_range 192 222 c && negb (code c =? 215)%N)
  then ascii_of_N (code c + 32)
  else c.

Fixpoint lower (s : string) : string :=
  match s with
  | EmptyString => EmptyString
  | String c s' => String (lower_char c) (lower s')
  end.

Fixpoint lstrip (s : string) : string :=
  match s with
  | EmptyString => EmptyString
  | String c s' => if isspace c then lstrip s' else s
  end.

Fixpoint rstrip (s : string) : string :=
  match s with
  | EmptyString => EmptyString
  | String c s' =>
      match rstrip s' with
      | EmptyString => if isspace c then EmptyString else String c EmptyString
      | r => String c r
      end
  end.

(** [str.strip()] with no argument. *)
Definition strip (s : string) : string := rstrip (lstrip s).

(** The last character of the non-empty text [String c s]. *)
Fixpoint last_char (c : ascii) (s : string) : ascii :=
  match s with
  | EmptyString => c
  | String c' s' => last_char c' s'
  end.

(** [str.split()] with no argument: the maximal runs of characters that are
    not whitespace, in order.  [word] is the run being read, reversed. *)
Fixpoint rev_string (acc s : string) : string :=
  match s with
  | EmptyString => acc
  | String c s' => rev_string (String c acc) s'
  end.

Definition flush (word : string) (k : list string) : list string :=
  match word with
  | EmptyString => k
  | _ => rev_string EmptyString word :: k
  end.

Fixpoint split_from (word : string) (s : string) : list string :=
  match s with
  | EmptyString => flush word []
  | String c s' =>
      if isspace c then flush word (split_from EmptyString s')
      else split_from (String c word) s'
  end.

Definition split (s : string) : list string := split_from EmptyString s.

Fixpoint contains (c : ascii) (s : string) : bool :=
  match s with
  | EmptyString => false
  | String c' s' => Ascii.eqb c c' || contains c s'
  end.

(** [str.isprintable] on one character. *)
Definition isprintable (c : ascii) : bool :=
  in_range 32 126 c || (in_range 161 255 c && negb (code c =? 173)%N).

Definition hex_digit (n : N) : ascii :=
  if (n <? 10)%N then ascii_of_N (48 + n) else ascii_of_N (87 + n).

Definition squote : ascii := ascii_of_nat 39.
Definition dquote : ascii := ascii_of_nat 34.
Definition backslash : ascii := ascii_of_nat 92.

Definition repr_char (quote c : ascii) : string :=
  if Ascii.eqb c quote || Ascii.eqb c backslash then String backslash (String c EmptyString)
  else if (code c =? 9)%N then String backslash "t"
  else if (code c =? 10)%N then String backslash "n"
  else if (code c =? 13)%N then String backslash "r"
  else if isprintable c then String c EmptyString
  else String backslash
         (String "x" (String (hex_digit (code c / 16))
                        (String (hex_digit (code c mod 16)) EmptyString))).

Fixpoint repr_body (quote : ascii) (s : string) : string :=
  match s with
  | EmptyString => String quote EmptyString
  | String c s' => repr_char quote c ++ repr_body quote s'
  end.

(** [repr(s)]: single quotes, unless the text has a single quote and no
    double quote. *)
Definition repr (s : string) : string :=
  let quote := if contains squote s && negb (contains dquote s) then dquote else squote in
  String quote (repr_body quote s).

End PyStr.

(** ** Python floats *)

Module PyFloat.
Import PyStr.

(** *** Arithmetic

    [+], [-] and [*] on floats never raise: overflow gives an infinity and
    an invalid operation gives a NaN.  The [/] of the language raises
    [ZeroDivisionError] itself when the divisor compares equal to zero. *)
Definition float_add (a b : float) : result float := Return (a + b)%float.
Definition float_sub (a b : float) : result float := Return (a - b)%float.
Definition float_mul (a b : float) : result float := Return (a * b)%float.
Definition float_truediv (a b : float) : result float :=
  if (b =? 0)%float then Raise (ZeroDivisionError "float division by zero")
  else Return (a / b)%float.

(** [b == 0], the comparison of a float with the integer literal zero: true
    of both zeros, false of every other float and of NaN. *)
Definition eq_int_zero (b : float) : bool := (b =? 0)%float.

(** *** [float(s)]: text to float *)

Definition isdigit (c : ascii) : bool := in_range 48 57 c.

(** C's [isspace] in the C locale, used when [float] trims its argument. *)
Definition c_isspace (c : ascii) : bool := in_range 9 13 c || (code c =? 32)%N.

(** C's [tolower] in the C locale. *)
Definition c_tolower (c : ascii) : ascii :=
  if in_range 65 90 c then ascii_of_N (code c + 32) else c.

Fixpoint is_ascii (s : string) : bool :=
  match s with
  | EmptyString => true
  | String c s' => (code c <? 128)%N && is_ascii s'
  end.

(** Whitespace beyond ASCII becomes a space; the first other character
    beyond ASCII becomes a question mark and ends the text (no code point
    of 127..255 is a decimal digit). *)
Fixpoint transform_loop (s : string) : string :=
  match s with
  | EmptyString => EmptyString
  | String c s' =>
      if (code c <? 127)%N then String c (transform_loop s')
      else if isspace c then String " " (transform_loop s')
      else "?"
  end.

Definition transform_decimal_and_space_to_ascii (s : string) : string :=
  if is_ascii s then s else transform_loop s.

(** Underscores are allowed between two digits only; they are removed. *)
Fixpoint remove_underscores (prev : ascii) (s : string) : option string :=
  match s with
  | EmptyString => if Ascii.eqb prev "_" then None else Some EmptyString
  | String c s' =>
      if Ascii.eqb c "_" then
        if isdigit prev then remove_underscores c s' else None
      else if Ascii.eqb prev "_" && negb (isdigit c) then None
      else option_map (String c) (remove_underscores c s')
  end.

Fixpoint c_lstrip (s : string) : string :=
  match s with
  | EmptyString => EmptyString
  | String c s' => if c_isspace c then c_lstrip s' else s
  end.

(** Trailing whitespace is removed down to the last character that is left. *)
Fixpoint c_rstrip (s : string) : string :=
  match s with
  | EmptyString => EmptyString
  | String c s' =>
      match c_rstrip s' with
      | EmptyString => String c EmptyString
      | String c' EmptyString =>
          if c_isspace c' then String c EmptyString else String c (String c' EmptyString)
      | r => String c r
      end
  end.

(** The digits at the head of a text, most significant first, and the rest. *)
Fixpoint span_digits (s : string) : list Z * string :=
  match s with
  | EmptyString => ([], EmptyString)
  | String c s' =>
      if isdigit c then
        let (ds, rest) := span_digits s' in (Z.of_N (code c) - 48 :: ds, rest)%Z
      else ([], s)
  end.

Definition Z_of_digits (ds : list Z) : Z :=
  fold_left (fun acc d => 10 * acc + d)%Z ds 0%Z.

Definition parse_sign (s : string) : bool * string :=
  match s with
  | String "-" s' => (true, s')
  | String "+" s' => (false, s')
  | _ => (false, s)
  end.

(** The exponent part: [e] or [E], an optional sign and at least one digit.
    Without a digit nothing is consumed. *)
Definition parse_exponent (s : string) : Z * string :=
  match s with
  | String c s' =>
      if Ascii.eqb (c_tolower c) "e" then
        let (neg, s1) := parse_sign s' in
        match span_digits s1 with
        | ([], _) => (0, s)
        | (ds, rest) => ((if neg then - Z_of_digits ds else Z_of_digits ds), rest)
        end%Z
      else (0%Z, s)
  | EmptyString => (0%Z, s)
  end.

(** A decimal literal read off the head of a text: its sign, the integer
    [m] written by its digits and the power of ten [e], for the value
    [m * 10 ^ e]; [None] when no digit was found. *)
Record decimal := { dec_neg : bool; dec_m : Z; dec_e : Z }.

Definition parse_decimal (s : string) : option (decimal * string) :=
  let (neg, s1) := parse_sign s in
  let (ip, s2) := span_digits s1 in
  let (fp, s3) :=
    match s2 with
    | String "." s2' => span_digits s2'
    | _ => ([], s2)
    end in
  match (ip ++ fp)%list with
  | [] => None
  | ds =>
      let (e, s4) := parse_exponent s3 in
      Some ({| dec_neg := neg; dec_m := Z_of_digits ds;
               dec_e := e - Z.of_nat (List.length fp) |}, s4)
  end%Z.

(** Case-insensitive match of a lower-case [word] at the head of a text;
    what follows it. *)
Fixpoint case_insensitive_match (s word : string) : option string :=
  match word with
  | EmptyString => Some s
  | String w word' =>
      match s with
      | String c s' =>
          if Ascii.eqb (c_tolower c) w then case_insensitive_match s' word' else None
      | EmptyString => None
      end
  end.

Definition parse_inf_or_nan (s : string) : option (float * string) :=
  let (neg, s1) := parse_sign s in
  match case_insensitive_match s1 "inf" with
  | Some s2 =>
      let rest := match case_insensitive_match s2 "inity" with
                  | Some s3 => s3
                  | None => s2
                  end in
      Some ((if neg then neg_infinity else infinity), rest)
  | None =>
      match case_insensitive_match s1 "nan" with
      | Some s2 => Some (nan, s2)
      | None => None
      end
  end.

(** The number of decimal digits of a positive integer. *)
Fixpoint decimal_digits_fuel (fuel : nat) (m : Z) : Z :=
  match fuel with
  | O => 0
  | S fuel' => if (m <? 10)%Z then 1 else 1 + decimal_digits_fuel fuel' (m / 10)
  end%Z.

Definition decimal_digits (m : Z) : Z :=
  decimal_digits_fuel (S (Z.to_nat (Z.log2 m))) m.

(** The binary64 number nearest to [m * 10 ^ e], ties to even: the
    correctly rounded result of the conversion.  A value of 10^310 or more
    is an infinity and one below 10^-330 is a zero, whatever its digits;
    between the two the exact integer or quotient is rounded. *)
Definition float_of_decimal (d : decimal) : float :=
  let m := dec_m d in
  let e := dec_e d in
  let magnitude := (decimal_digits m + e)%Z in
  if (m =? 0)%Z then (if dec_neg d then neg_zero else zero)
  else if (310 <? magnitude)%Z then (if dec_neg d then neg_infinity else infinity)
  else if (magnitude <? -330)%Z then (if dec_neg d then neg_zero else zero)
  else
    SF2Prim
      (if (0 <=? e)%Z
       then binary_round prec emax (dec_neg d) (Z.to_pos (m * 10 ^ e)) 0
       else SFdiv prec emax
              (S754_finite (dec_neg d) (Z.to_pos m) 0)
              (S754_finite false (Z.to_pos (10 ^ (- e))) 0)).

(** The conversion of a text that holds no underscore and no whitespace at
    its ends: a decimal literal first and, when it reads nothing, an
    infinity or a NaN.  The whole text must be consumed. *)
Definition string_to_double (s : string) : option float :=
  match parse_decimal s with
  | Some (d, EmptyString) => Some (float_of_decimal d)
  | Some (_, String _ _) => None
  | None =>
      match parse_inf_or_nan s with
      | Some (x, EmptyString) => Some x
      | _ => None
      end
  end.

Definition float_from_string_inner (s : string) : option float :=
  match c_lstrip s with
  | EmptyString => None
  | s' => string_to_double (c_rstrip s')
  end.

(** [float(s)] for a [str] argument. *)
Definition float_of_str (s : string) : result float :=
  let parsed :=
    match remove_underscores Ascii.zero (transform_decimal_and_space_to_ascii s) with
    | Some t => float_from_string_inner t
    | None => None
    end in
  match parsed with
  | Some x => Return x
  | None => Raise (ValueError ("could not convert string to float: " ++ repr s))
  end.

(** *** [repr(x)]: float to text

    [repr] of a finite float writes the shortest decimal digit string that
    [float] reads back as the same float, and of the strings of that length
    the one nearest to the float.  A positive finite float is [m * 2 ^ e];
    the texts that read back as it are those of the interval between the
    midpoints to its two neighbours, ends included when [m] is even. *)

(** The float and the two midpoints, as numerators over the common
    denominator [iv_den]. *)
Record interval := {
  iv_x : Z; iv_lo : Z; iv_hi : Z; iv_den : Z; iv_closed : bool
}.

Definition rounding_interval (m : positive) (e : Z) : interval :=
  let narrow_below := (Pos.eqb m (2 ^ 52) && (SpecFloat.emin prec emax <? e))%Z in
  let scale := (2 ^ Z.max (e - 2) 0)%Z in
  {| iv_x := 4 * Zpos m * scale;
     iv_lo := (4 * Zpos m - (if narrow_below then 1 else 2)) * scale;
     iv_hi := (4 * Zpos m + 2) * scale;
     iv_den := 2 ^ Z.max (2 - e) 0;
     iv_closed := Z.even (Zpos m) |}%Z.

(** [10 ^ p <= n / den] *)
Definition pow10_le (p n den : Z) : bool :=
  (if 0 <=? p then den * 10 ^ p <=? n else den <=? n * 10 ^ (- p))%Z.

(** The [p] with [10 ^ p <= n / den < 10 ^ (p + 1)], for [den] a power of
    two: an estimate from the binary logarithm, off by one at most. *)
Definition floor_log10 (n den : Z) : Z :=
  let est := ((Z.log2 n - Z.log2 den) * 1233 / 4096)%Z in
  if pow10_le (est + 1) n den then (est + 1)%Z
  else if pow10_le est n den then est
  else (est - 1)%Z.

Definition inside (iv : interval) (unit scaled : Z) (d : Z) : bool :=
  (if iv_closed iv
   then (iv_lo iv * scaled <=? d * unit) && (d * unit <=? iv_hi iv * scaled)
   else (iv_lo iv * scaled <? d * unit) && (d * unit <? iv_hi iv * scaled))%Z.

(** With [k] digits the candidates are the two multiples of [10 ^ q]
    around the float, [q = p10 - (k - 1)]. *)
Fixpoint shortest_from (fuel : nat) (iv : interval) (p10 k : Z) : Z * Z :=
  let q := (p10 - (k - 1))%Z in
  let unit := (iv_den iv * 10 ^ Z.max q 0)%Z in
  let scaled := (10 ^ Z.max (- q) 0)%Z in
  let d := (iv_x iv * scaled / unit)%Z in
  let below := (iv_x iv * scaled - d * unit)%Z in
  let above := ((d + 1) * unit - iv_x iv * scaled)%Z in
  let nearest :=
    match (below ?= above)%Z with
    | Lt => d
    | Gt => (d + 1)%Z
    | Eq => if Z.even d then d else (d + 1)%Z
    end in
  match fuel with
  | O => (nearest, q)
  | S fuel' =>
      match inside iv unit scaled d, inside iv unit scaled (d + 1) with
      | true, true => (nearest, q)
      | true, false => (d, q)
      | false, true => ((d + 1)%Z, q)
      | false, false => shortest_from fuel' iv p10 (k + 1)
      end
  end.

Fixpoint strip_zeros (fuel : nat) (d q : Z) : Z * Z :=
  match fuel with
  | O => (d, q)
  | S fuel' =>
      if ((d mod 10 =? 0) && negb (d =? 0))%Z
      then strip_zeros fuel' (d / 10)%Z (q + 1)%Z
      else (d, q)
  end.

(** The digits [d] and the power of ten [q] of the text of [m * 2 ^ e]:
    it denotes [d * 10 ^ q] and [d] does not end in a zero.  Seventeen
    digits always tell a binary64 number from its neighbours. *)
Definition shortest_decimal (m : positive) (e : Z) : Z * Z :=
  let iv := rounding_interval m e in
  let (d, q) := shortest_from 16 iv (floor_log10 (iv_x iv) (iv_den iv)) 1 in
  strip_zeros 17 d q.

Definition digit_char (d : Z) : ascii := ascii_of_N (48 + Z.to_N d).

Fixpoint digits_fuel (fuel : nat) (n : Z) (acc : string) : string :=
  match fuel with
  | O => acc
  | S fuel' =>
      let acc' := String (digit_char (n mod 10)) acc in
      if (n <? 10)%Z then acc' else digits_fuel fuel' (n / 10)%Z acc'
  end.

(** The decimal digits of a natural number, [str(n)]. *)
Definition digits_of_Z (n : Z) : string :=
  digits_fuel (S (Z.to_nat (Z.log2 n))) n EmptyString.

Fixpoint zeros (n : nat) : string :=
  match n with
  | O => EmptyString
  | S n' => String "0" (zeros n')
  end.

Definition take (n : nat) (s : string) : string := substring 0 n s.
Definition drop (n : nat) (s : string) : string := substring n (String.length s - n) s.

(** The layout of the repr format: the decimal point sits after [decpt]
    digits; the exponent form is used when [decpt] is outside -3..16, and a
    text with neither point nor exponent gets [.0] appended. *)
Definition format_digits (digits : string) (decpt : Z) : string :=
  let k := Z.of_nat (String.length digits) in
  if ((decpt <=? -4) || (16 <? decpt))%Z then
    let ex := (decpt - 1)%Z in
    let mantissa :=
      match digits with
      | String c EmptyString => digits
      | String c rest => String c (String "." rest)
      | EmptyString => digits
      end in
    let exdigits := digits_of_Z (Z.abs ex) in
    mantissa ++ "e" ++ (if (ex <? 0)%Z then "-" else "+")
      ++ (if (Z.abs ex <? 10)%Z then "0" else EmptyString) ++ exdigits
  else if (decpt <=? 0)%Z then "0." ++ zeros (Z.to_nat (- decpt)) ++ digits
  else if (decpt <? k)%Z then
    take (Z.to_nat decpt) digits ++ "." ++ drop (Z.to_nat decpt) digits
  else digits ++ zeros (Z.to_nat (decpt - k)) ++ ".0".

(** [repr(x)], which is also [str(x)] and what an f-string writes. *)
Definition float_repr (x : float) : string :=
  match Prim2SF x with
  | S754_nan => "nan"
  | S754_infinity false => "inf"
  | S754_infinity true => "-inf"
  | S754_zero false => "0.0"
  | S754_zero true => "-0.0"
  | S754_finite s m e =>
      let (d, q) := shortest_decimal m e in
      let digits := digits_of_Z d in
      (if s then "-" else EmptyString)
        ++ format_digits digits (Z.of_nat (String.length digits) + q)
  end.

End PyFloat.

(** ** The program *)

Import PyStr PyFloat.

(** *** [calculate] *)

Definition division_by_zero_message : string := "Division by zero is not allowed.".

Definition unsupported_operator_message (operator : string) : string :=
  "Unsupported operator: " ++ operator.

Definition calculate (a b : float) (operator : string) : result float :=
  if operator =? "+" then float_add a b
  else if operator =? "-" then float_sub a b
  else if operator =? "*" then float_mul a b
  else if operator =? "/" then
    if eq_int_zero b then Raise (ZeroDivisionError division_by_zero_message)
    else float_truediv a b
  else Raise (ValueError (unsupported_operator_message operator)).

(** *** [main] *)

(** What the program writes to standard output: the prompt of an [input]
    call, or a line written by [print]. *)
Inductive output : Type :=
| Prompt (text : string)
| Print (line : string).

Definition banner : string :=
  "Simple Console Calculator. Type 'exit' or 'quit' to leave.".
Definition prompt : string := "Enter expression (format: a operator b): ".
Definition farewell : string := "Goodbye!".
Definition format_error : string := "Invalid format. Use: a operator b (e.g. 5 + 3)".

(** [user_input.lower() in {'exit', 'quit'}] *)
Definition is_exit_command (user_input : string) : bool :=
  (lower user_input =? "exit") || (lower user_input =? "quit").

(** [a_str, operator, b_str = parts]: unpacking raises [ValueError] unless
    the list has exactly three items. *)
Definition unpack3 (parts : list string) : result (string * string * string) :=
  match parts with
  | [a_str; operator; b_str] => Return (a_str, operator, b_str)
  | _ :: _ :: _ :: _ :: _ => Raise (ValueError "too many values to unpack (expected 3)")
  | _ =>
      Raise (ValueError ("not enough values to unpack (expected 3, got "
                           ++ digits_of_Z (Z.of_nat (List.length parts)) ++ ")"))
  end.

(** The body of the [try] statement.  [continue] after the format message
    leaves the block with nothing more to do in the iteration. *)
Definition try_block (user_input : string) : result (list output) :=
  let parts := split user_input in
  if negb (List.length parts =? 3)%nat then Return [Print format_error]
  else
    '(a_str, operator, b_str) <- unpack3 parts ;;
    a <- float_of_str a_str ;;
    b <- float_of_str b_str ;;
    r <- calculate a b operator ;;
    Return [Print ("Result: " ++ float_repr r)].

(** The [except] clauses, tried in order. *)
Inductive handler : Type :=
| ExceptValueError
| ExceptZeroDivisionError
| ExceptException.

Definition handler_of (e : exception) : handler :=
  match e with
  | ValueError _ => ExceptValueError
  | ZeroDivisionError _ => ExceptZeroDivisionError
  | OverflowError _ | EOFError _ => ExceptException
  end.

Definition handler_prefix (h : handler) : string :=
  match h with
  | ExceptValueError => "Input error: "
  | ExceptZeroDivisionError => "Calculation error: "
  | ExceptException => "Unexpected error: "
  end.

Definition handle (e : exception) : list output :=
  [Print (handler_prefix (handler_of e) ++ str_of_exception e)].

(** The two states of the session. *)
Inductive state : Type :=
| Running
| Terminated.

(** One pass through the body of [while True], given the line that [input]
    returned: the state it leaves the session in and what it printed. *)
Definition iteration (line : string) : state * list output :=
  let user_input := strip line in
  if is_exit_command user_input then (Terminated, [Print farewell])
  else
    (Running,
     match try_block user_input with
     | Return out => out
     | Raise e => handle e
     end).

(** How the process ends: [main] returns (exit status 0), or an exception
    leaves [main] uncaught (traceback, exit status 1). *)
Inductive termination : Type :=
| ReturnsNormally
| UncaughtException (e : exception).

Definition exit_code (t : termination) : Z :=
  match t with
  | ReturnsNormally => 0
  | UncaughtException _ => 1
  end.

(** [input(prompt)] on the lines left on standard input.  It stands outside
    the [try] statement. *)
Definition input (stdin : list string) : result (string * list string) :=
  match stdin with
  | [] => Raise (EOFError "EOF when reading a line")
  | line :: rest => Return (line, rest)
  end.

(** One pass of [while True] from the lines left on standard input, given
    what the rest of the loop does with the lines after it.  An exception
    raised by [input] is not caught: it ends [main]. *)
Definition loop_body (continue : list string -> list output * termination)
    (stdin : list string) : list output * termination :=
  match input stdin with
  | Raise e => ([Prompt prompt], UncaughtException e)
  | Return (line, rest) =>
      match iteration line with
      | (Terminated, out) => (Prompt prompt :: out, ReturnsNormally)
      | (Running, out) =>
          let (out', t) := continue rest in (Prompt prompt :: out ++ out', t)
      end
  end.

(** The [while True] loop, by recursion on the lines of standard input; it
    is the fixed point of [loop_body] ([loop_unfold] below). *)
Fixpoint loop (stdin : list string) : list output * termination :=
  match stdin with
  | [] => loop_body (fun _ => ([], ReturnsNormally)) []
  | line :: rest => loop_body (fun _ => loop rest) (line :: rest)
  end.

Definition main (stdin : list string) : list output * termination :=
  let (out, t) := loop stdin in (Print banner :: out, t).

(** * Properties *)

(** ** The builtins on strings *)

Section StringFacts.

(** A character whose lower-case form is an ASCII letter is that letter or
    its capital. *)
Lemma lower_char_inv (c d : ascii) :
  lower_char c = d ->
  in_range 97 122 d = true ->
  c = d \/ c = ascii_of_N (code d - 32).
Proof.
  intros <-.
  destruct c as [[] [] [] [] [] [] [] []];
    vm_compute; intro H; try discriminate H; auto.
Qed.

Lemma lower_cons_inv (s : string) (d : ascii) (t : string) :
  lower s = String d t ->
  exists c s', s = String c s' /\ lower_char c = d /\ lower s' = t.
Proof.
  destruct s as [|c s']; simpl; intro H; [discriminate|].
  injection H as Hc Hs. now exists c, s'.
Qed.

Lemma lower_nil_inv (s : string) : lower s = EmptyString -> s = EmptyString.
Proof. destruct s; [reflexivity | discriminate]. Qed.

Lemma lstrip_spaces (ws s : string) (c : ascii) :
  forallb isspace (list_ascii_of_string ws) = true ->
  isspace c = false ->
  lstrip (ws ++ String c s) = String c s.
Proof.
  intros Hws Hc. induction ws as [|w ws IH]; simpl in *.
  - now rewrite Hc.
  - apply andb_true_iff in Hws as [Hw Hws]. rewrite Hw. now apply IH.
Qed.

Lemma rstrip_all_spaces (ws : string) :
  forallb isspace (list_ascii_of_string ws) = true -> rstrip ws = EmptyString.
Proof.
  induction ws as [|w ws IH]; simpl; [reflexivity|].
  intro H. apply andb_true_iff in H as [Hw Hws].
  now rewrite (IH Hws), Hw.
Qed.

Lemma rstrip_spaces (c : ascii) (s ws : string) :
  forallb isspace (list_ascii_of_string ws) = true ->
  isspace (last_char c s) = false ->
  rstrip (String c s ++ ws) = String c s.
Proof.
  intros Hws. revert c. induction s as [|c' s IH]; intros c Hc; simpl in *.
  - now rewrite (rstrip_all_spaces ws Hws), Hc.
  - specialize (IH c' Hc). simpl in IH. now rewrite IH.
Qed.

(** Whitespace around a text that neither starts nor ends with whitespace
    is what [strip] removes. *)
Lemma strip_padded (ws1 ws2 s : string) (c : ascii) :
  forallb isspace (list_ascii_of_string ws1) = true ->
  forallb isspace (list_ascii_of_string ws2) = true ->
  isspace c = false ->
  isspace (last_char c s) = false ->
  strip (ws1 ++ String c s ++ ws2) = String c s.
Proof.
  intros H1 H2 Hc Hl. unfold strip.
  change (String c s ++ ws2) with (String c (s ++ ws2)).
  rewrite (lstrip_spaces ws1 (s ++ ws2) c H1 Hc).
  exact (rstrip_spaces c s ws2 H2 Hl).
Qed.

End StringFacts.

(** ** The builtins on floats *)

Section FloatFacts.

Local Open Scope Z_scope.

(** The fuel of [decimal_digits] is enough: its result is the number of
    decimal digits, so the two cut-offs of [float_of_decimal] compare the
    true order of magnitude. *)
Lemma decimal_digits_fuel_spec (fuel : nat) :
  forall m, 0 < m -> m < 2 ^ Z.of_nat fuel ->
  1 <= decimal_digits_fuel fuel m
  /\ 10 ^ (decimal_digits_fuel fuel m - 1) <= m < 10 ^ decimal_digits_fuel fuel m.
Proof.
  induction fuel as [|fuel IH]; intros m Hpos Hlt.
  - simpl in Hlt. lia.
  - cbn [decimal_digits_fuel]. destruct (m <? 10) eqn:E.
    + apply Z.ltb_lt in E. simpl. lia.
    + apply Z.ltb_ge in E.
      rewrite Nat2Z.inj_succ, Z.pow_succ_r in Hlt by lia.
      assert (Hq : 0 < m / 10) by (apply Z.div_str_pos; lia).
      assert (Hq' : m / 10 < 2 ^ Z.of_nat fuel).
      { apply Z.div_lt_upper_bound; lia. }
      destruct (IH (m / 10) Hq Hq') as (Hd & Hlo & Hhi).
      set (d := decimal_digits_fuel fuel (m / 10)) in *.
      replace (1 + d - 1) with (Z.succ (d - 1)) by lia.
      replace (1 + d) with (Z.succ d) by lia.
      rewrite !Z.pow_succ_r by lia.
      pose proof (Z.div_mod m 10 ltac:(lia)) as Hdm.
      pose proof (Z.mod_pos_bound m 10 ltac:(lia)) as Hmod.
      lia.
Qed.

Lemma decimal_digits_spec (m : Z) :
  0 < m -> 10 ^ (decimal_digits m - 1) <= m < 10 ^ decimal_digits m.
Proof.
  intro Hpos. unfold decimal_digits.
  apply decimal_digits_fuel_spec; [exact Hpos|].
  rewrite Nat2Z.inj_succ, Z2Nat.id by apply Z.log2_nonneg.
  apply Z.log2_spec; exact Hpos.
Qed.

(** A zero of either sign equals the integer zero; a NaN does not. *)
Lemma eq_int_zero_examples :
  eq_int_zero 0 = true /\ eq_int_zero (-0) = true
  /\ eq_int_zero nan = false /\ eq_int_zero infinity = false.
Proof. repeat split. Qed.

End FloatFacts.

(** Splits a hypothesis [H : lower s = w], for a word [w] of ASCII letters,
    into the texts [s] that differ from [w] by letter case only. *)
Ltac letter_cases H :=
  repeat
    (let Hc := fresh "Hc" in
     apply lower_cons_inv in H as (? & ? & -> & Hc & H);
     apply lower_char_inv in Hc; [|reflexivity];
     destruct Hc as [-> | ->]);
  apply lower_nil_inv in H as ->.

Section ExitCommand.

Lemma is_exit_command_iff (s : string) :
  is_exit_command s = true <-> lower s = "exit" \/ lower s = "quit".
Proof.
  unfold is_exit_command. rewrite orb_true_iff, !String.eqb_eq. reflexivity.
Qed.

(** An exit command is a single token: a line of three tokens is never one. *)
Lemma exit_command_single_token (s : string) :
  is_exit_command s = true -> split s = [s].
Proof.
  intro H. apply is_exit_command_iff in H as [H | H];
    letter_cases H; reflexivity.
Qed.

Lemma three_tokens_not_exit (s a_str operator b_str : string) :
  split s = [a_str; operator; b_str] -> is_exit_command s = false.
Proof.
  intro Hs. destruct (is_exit_command s) eqn:E; [|reflexivity].
  apply exit_command_single_token in E. rewrite E in Hs. discriminate.
Qed.

End ExitCommand.

(** ** The evaluator *)

Section Evaluator.

Variables a b : float.

Lemma calculate_div_zero :
  (b =? 0)%float = true ->
  calculate a b "/" = Raise (ZeroDivisionError division_by_zero_message).
Proof.
  intro Hb. unfold calculate, eq_int_zero. simpl. now rewrite Hb.
Qed.

Lemma calculate_div_nonzero :
  (b =? 0)%float = false -> calculate a b "/" = Return (a / b)%float.
Proof.
  intro Hb. unfold calculate, eq_int_zero, float_truediv. simpl. now rewrite Hb.
Qed.

Lemma calculate_unsupported (operator : string) :
  operator <> "+" -> operator <> "-" -> operator <> "*" -> operator <> "/" ->
  calculate a b operator = Raise (ValueError (unsupported_operator_message operator)).
Proof.
  intros Hadd Hsub Hmul Hdiv. unfold calculate.
  apply String.eqb_neq in Hadd, Hsub, Hmul, Hdiv.
  now rewrite Hadd, Hsub, Hmul, Hdiv.
Qed.

(** The three ways a call can end. *)
Lemma calculate_cases (operator : string) :
  (exists r, calculate a b operator = Return r)
  \/ calculate a b operator = Raise (ValueError (unsupported_operator_message operator))
  \/ calculate a b operator = Raise (ZeroDivisionError division_by_zero_message).
Proof.
  unfold calculate, float_add, float_sub, float_mul, float_truediv, eq_int_zero.
  destruct (operator =? "+"); [left; eauto|].
  destruct (operator =? "-"); [left; eauto|].
  destruct (operator =? "*"); [left; eauto|].
  destruct (operator =? "/"); [|right; left; reflexivity].
  destruct (b =? 0)%float; [right; right; reflexivity | left; eauto].
Qed.

End Evaluator.

(** ** The session loop *)

Section SessionLoop.

Lemma loop_unfold (stdin : list string) : loop stdin = loop_body loop stdin.
Proof. destruct stdin; reflexivity. Qed.

Lemma loop_eof :
  loop [] = ([Prompt prompt], UncaughtException (EOFError "EOF when reading a line")).
Proof. reflexivity. Qed.

Lemma loop_running (line : string) (out : list output) (rest : list string) :
  iteration line = (Running, out) ->
  loop (line :: rest) = (Prompt prompt :: out ++ fst (loop rest), snd (loop rest)).
Proof.
  intro H. rewrite loop_unfold. unfold loop_body, input. rewrite H.
  now destruct (loop rest).
Qed.

Lemma loop_terminated (line : string) (out : list output) (rest : list string) :
  iteration line = (Terminated, out) ->
  loop (line :: rest) = (Prompt prompt :: out, ReturnsNormally).
Proof.
  intro H. rewrite loop_unfold. unfold loop_body, input. now rewrite H.
Qed.

(** Whatever is left on standard input, the loop starts by prompting. *)
Lemma loop_prompts_first (stdin : list string) :
  exists out, fst (loop stdin) = Prompt prompt :: out.
Proof.
  destruct stdin as [|line rest]; [now exists []|].
  destruct (iteration line) as [[] out] eqn:E.
  - rewrite (loop_running _ _ _ E). simpl. eauto.
  - rewrite (loop_terminated _ _ _ E). simpl. eauto.
Qed.

Lemma iteration_exit (line : string) :
  is_exit_command (strip line) = true ->
  iteration line = (Terminated, [Print farewell]).
Proof. intro H. unfold iteration. now rewrite H. Qed.

Lemma iteration_not_exit (line : string) :
  is_exit_command (strip line) = false ->
  iteration line =
    (Running,
     match try_block (strip line) with
     | Return out => out
     | Raise e => handle e
     end).
Proof. intro H. unfold iteration. now rewrite H. Qed.

Lemma try_block_format_error (user_input : string) :
  List.length (split user_input) <> 3%nat ->
  try_block user_input = Return [Print format_error].
Proof.
  intro H. unfold try_block. apply Nat.eqb_neq in H. now rewrite H.
Qed.

Lemma try_block_three_tokens (user_input a_str operator b_str : string) :
  split user_input = [a_str; operator; b_str] ->
  try_block user_input =
    (a <- float_of_str a_str ;;
     b <- float_of_str b_str ;;
     r <- calculate a b operator ;;
     Return [Print ("Result: " ++ float_repr r)]).
Proof. intro H. unfold try_block. now rewrite H. Qed.

(** [float] raises nothing but [ValueError]. *)
Lemma float_of_str_raises (s : string) (e : exception) :
  float_of_str s = Raise e -> handler_of e = ExceptValueError.
Proof.
  unfold float_of_str.
  destruct (match remove_underscores _ _ with Some t => _ | None => None end);
    [discriminate|].
  now intros [= <-].
Qed.

Lemma calculate_raises (a b : float) (operator : string) (e : exception) :
  calculate a b operator = Raise e -> handler_of e <> ExceptException.
Proof.
  destruct (calculate_cases a b operator) as [[r ->] | [-> | ->]];
    [discriminate | now intros [= <-] ..].
Qed.

(** The [try] block ends by printing the format message or a result, or by
    raising an exception that one of the first two [except] clauses
    handles. *)
Lemma try_block_cases (user_input : string) :
  try_block user_input = Return [Print format_error]
  \/ (exists r, try_block user_input = Return [Print ("Result: " ++ float_repr r)])
  \/ (exists e, try_block user_input = Raise e /\ handler_of e <> ExceptException).
Proof.
  unfold try_block.
  destruct (negb (List.length (split user_input) =? 3)%nat) eqn:Hlen; [now left|].
  right.
  destruct (split user_input) as [|a_str [|operator [|b_str [|x parts]]]];
    try discriminate Hlen.
  simpl.
  destruct (float_of_str a_str) as [a | e] eqn:Ha; simpl.
  2:{ right. exists e. split; [reflexivity|].
      now rewrite (float_of_str_raises _ _ Ha). }
  destruct (float_of_str b_str) as [b | e] eqn:Hb; simpl.
  2:{ right. exists e. split; [reflexivity|].
      now rewrite (float_of_str_raises _ _ Hb). }
  destruct (calculate a b operator) as [r | e] eqn:Hr; simpl.
  - left. eauto.
  - right. exists e. split; [reflexivity|]. exact (calculate_raises _ _ _ _ Hr).
Qed.

Lemma handle_prints (e : exception) :
  handle e = [Print (handler_prefix (handler_of e) ++ str_of_exception e)].
Proof. reflexivity. Qed.

Lemma handle_not_farewell (e : exception) : handle e <> [Print farewell].
Proof. unfold handle. destruct (handler_of e); discriminate. Qed.

(** A line that is not an exit command prints one line, never the
    farewell, and leaves the session running. *)
Lemma iteration_running_prints (line : string) :
  is_exit_command (strip line) = false ->
  exists msg, iteration line = (Running, [Print msg]) /\ msg <> farewell.
Proof.
  intro H. rewrite (iteration_not_exit line H).
  destruct (try_block_cases (strip line)) as [-> | [[r ->] | [e [-> _]]]].
  - eexists. split; [reflexivity | discriminate].
  - eexists. split; [reflexivity | discriminate].
  - unfold handle. eexists. split; [reflexivity|].
    destruct (handler_of e); discriminate.
Qed.

(** Without an exit command on standard input the loop runs into the end
    of input: its last write is a prompt and [EOFError] leaves it. *)
Lemma loop_without_exit (stdin : list string) :
  Forall (fun line => is_exit_command (strip line) = false) stdin ->
  exists out,
    loop stdin = ((out ++ [Prompt prompt])%list,
                  UncaughtException (EOFError "EOF when reading a line"))
    /\ ~ In (Print farewell) out.
Proof.
  induction 1 as [|line rest Hline _ (out & IH & Hout)].
  - exists []. split; [reflexivity | intros []].
  - destruct (iteration_running_prints line Hline) as (msg & Hit & Hmsg).
    rewrite (loop_running _ _ rest Hit), IH. simpl.
    exists (Prompt prompt :: Print msg :: out). split; [reflexivity|].
    intros [Hin | [Hin | Hin]]; [discriminate | congruence | contradiction].
Qed.

(** X16: an exit keyword in any letter case, with any whitespace before and
    after it, ends the session with the farewell. *)
Lemma exit_command_padded (ws1 w ws2 : string) :
  forallb isspace (list_ascii_of_string ws1) = true ->
  forallb isspace (list_ascii_of_string ws2) = true ->
  lower w = "exit" \/ lower w = "quit" ->
  iteration (ws1 ++ w ++ ws2) = (Terminated, [Print farewell]).
Proof.
  intros H1 H2 [H | H]; letter_cases H; apply iteration_exit;
    rewrite strip_padded by (assumption || reflexivity); reflexivity.
Qed.

(** The session ends at the first exit command: the lines before it are
    answered one by one and the lines after it are never read. *)
Lemma loop_ends_at_exit (before : list string) (line : string) (rest : list string) :
  Forall (fun l => is_exit_command (strip l) = false) before ->
  is_exit_command (strip line) = true ->
  snd (loop (before ++ line :: rest)) = ReturnsNormally
  /\ fst (loop (before ++ line :: rest)) = fst (loop (before ++ [line])).
Proof.
  intros Hbefore Hline. induction Hbefore as [|l before Hl _ IH]; simpl app.
  - now rewrite !(loop_terminated _ _ _ (iteration_exit line Hline)).
  - destruct (iteration_running_prints l Hl) as (msg & Hit & _).
    rewrite !(loop_running _ _ _ Hit). simpl.
    destruct IH as [-> ->]. now split.
Qed.

End SessionLoop.

(** ** The model at work *)

Section Examples.

#[local] Set Warnings "-inexact-float".

Example session_example :
  main ["5 + 3"; "10 / 0"; "abc + 3"; "5 3"; "7 / 2"; "2 ^ 3"; " EXIT "; "1 + 1"] =
    ([Print banner;
      Prompt prompt; Print "Result: 8.0";
      Prompt prompt; Print "Calculation error: Division by zero is not allowed.";
      Prompt prompt; Print "Input error: could not convert string to float: 'abc'";
      Prompt prompt; Print "Invalid format. Use: a operator b (e.g. 5 + 3)";
      Prompt prompt; Print "Result: 3.5";
      Prompt prompt; Print "Input error: Unsupported operator: ^";
      Prompt prompt; Print "Goodbye!"],
     ReturnsNormally).
Proof. vm_compute. reflexivity. Qed.

Example overflow_is_infinity :
  calculate 1e308 10 "*" = Return infinity
  /\ iteration "1e308 * 10" = (Running, [Print "Result: inf"]).
Proof. split; vm_compute; reflexivity. Qed.

Example invalid_operation_is_nan :
  calculate infinity infinity "-" = Return nan
  /\ iteration "inf - inf" = (Running, [Print "Result: nan"]).
Proof. split; vm_compute; reflexivity. Qed.

Example binary_rounding_shows :
  iteration "0.1 + 0.2" = (Running, [Print "Result: 0.30000000000000004"]).
Proof. vm_compute. reflexivity. Qed.

Example split_example : split "  12   +  7 " = ["12"; "+"; "7"].
Proof. reflexivity. Qed.

Example float_of_str_examples :
  float_of_str "1_000.5e-3" = Return 1.0005%float
  /\ float_of_str ".5" = Return 0.5%float
  /\ float_of_str "-Infinity" = Return neg_infinity
  /\ float_of_str "1e400" = Return infinity
  /\ float_of_str "1e" = Raise (ValueError "could not convert string to float: '1e'").
Proof. repeat split; vm_compute; reflexivity. Qed.

Example float_repr_examples :
  float_repr 8 = "8.0"
  /\ float_repr 1e16 = "1e+16"
  /\ float_repr 0.0001 = "0.0001"
  /\ float_repr 1.5e-7 = "1.5e-07"
  /\ float_repr (1 / 3) = "0.3333333333333333"
  /\ float_repr neg_zero = "-0.0".
Proof. repeat split; vm_compute; reflexivity. Qed.

End Examples.

(** * The claims *)

(** ** End of input *)

(** C1, as the specification states it, fails: with standard input at its
    end the session does not finish as after an exit command.  After one
    evaluated line, [input] raises [EOFError], nothing catches it, and the
    exit status is 1. *)
Lemma end_of_input_not_graceful :
  main ["5 + 3"] =
    ([Print banner; Prompt prompt; Print "Result: 8.0"; Prompt prompt],
     UncaughtException (EOFError "EOF when reading a line"))
  /\ exit_code (snd (main ["5 + 3"])) = 1%Z
  /\ snd (main ["5 + 3"]) <> ReturnsNormally.
Proof.
  split; [vm_compute; reflexivity|].
  split; [vm_compute; reflexivity | vm_compute; discriminate].
Qed.

(** C1, amended: when standard input ends before any exit command, the
    [input] call raises [EOFError] outside the [try] statement; the error is
    not caught, so the session ends with it (exit status 1) right after
    writing a prompt, and the farewell is never printed. *)
Theorem end_of_input_is_uncaught (stdin : list string) :
  Forall (fun line =>
            lower (strip line) <> "exit" /\ lower (strip line) <> "quit") stdin ->
  exists out,
    main stdin = ((Print banner :: out ++ [Prompt prompt])%list,
                  UncaughtException (EOFError "EOF when reading a line"))
    /\ exit_code (snd (main stdin)) = 1%Z
    /\ ~ In (Print farewell) (fst (main stdin)).
Proof.
  intro H.
  assert (H' : Forall (fun line => is_exit_command (strip line) = false) stdin).
  { eapply Forall_impl; [|exact H]. intros line [He Hq]; simpl.
    destruct (is_exit_command (strip line)) eqn:E; [|reflexivity].
    apply is_exit_command_iff in E as [E | E]; contradiction. }
  destruct (loop_without_exit stdin H') as (out & Hloop & Hout).
  exists out. unfold main. rewrite Hloop. simpl. repeat split.
  intros [Hin | Hin]; [discriminate|].
  apply in_app_or in Hin as [Hin | [Hin | []]]; [contradiction | discriminate].
Qed.

Lemma end_of_input_is_uncaught_witness :
  Forall (fun line =>
            lower (strip line) <> "exit" /\ lower (strip line) <> "quit")
         ["5 + 3"; "10 / 0"]
  /\ exists out,
       main ["5 + 3"; "10 / 0"] =
         ((Print banner :: out ++ [Prompt prompt])%list,
          UncaughtException (EOFError "EOF when reading a line"))
       /\ exit_code (snd (main ["5 + 3"; "10 / 0"])) = 1%Z
       /\ ~ In (Print farewell) (fst (main ["5 + 3"; "10 / 0"])).
Proof.
  assert (H : Forall (fun line =>
                        lower (strip line) <> "exit" /\ lower (strip line) <> "quit")
                     ["5 + 3"; "10 / 0"]).
  { repeat constructor; discriminate. }
  split; [exact H | exact (end_of_input_is_uncaught ["5 + 3"; "10 / 0"] H)].
Defined.

(** ** Lines that are not exit commands *)

(** C2: a line whose trimmed, lower-cased form is neither [exit] nor [quit]
    never ends the session.  The iteration prints one line and stays in
    [Running]; an exception raised while tokenizing, converting or evaluating
    is turned into a message by one of the [except] clauses; and the loop
    goes on to prompt again. *)
Theorem non_exit_line_keeps_running (line : string) :
  lower (strip line) <> "exit" ->
  lower (strip line) <> "quit" ->
  (exists msg, iteration line = (Running, [Print msg]))
  /\ (forall e, try_block (strip line) = Raise e ->
        iteration line =
          (Running, [Print (handler_prefix (handler_of e) ++ str_of_exception e)]))
  /\ (forall rest, exists msg out,
        loop (line :: rest) =
          (Prompt prompt :: Print msg :: Prompt prompt :: out, snd (loop rest))).
Proof.
  intros He Hq.
  assert (H : is_exit_command (strip line) = false).
  { destruct (is_exit_command (strip line)) eqn:E; [|reflexivity].
    apply is_exit_command_iff in E as [E | E]; contradiction. }
  destruct (iteration_running_prints line H) as (msg & Hit & _).
  split; [eauto|]. split.
  - intros e Hraise. rewrite (iteration_not_exit line H), Hraise. reflexivity.
  - intro rest. destruct (loop_prompts_first rest) as [out Hout].
    exists msg, out. rewrite (loop_running _ _ rest Hit), Hout. reflexivity.
Qed.

Lemma non_exit_line_keeps_running_witness :
  lower (strip "abc + 3") <> "exit"
  /\ lower (strip "abc + 3") <> "quit"
  /\ (exists msg, iteration "abc + 3" = (Running, [Print msg]))
  /\ (forall e, try_block (strip "abc + 3") = Raise e ->
        iteration "abc + 3" =
          (Running, [Print (handler_prefix (handler_of e) ++ str_of_exception e)]))
  /\ (forall rest, exists msg out,
        loop ("abc + 3" :: rest) =
          (Prompt prompt :: Print msg :: Prompt prompt :: out, snd (loop rest))).
Proof.
  split; [discriminate|]. split; [discriminate|].
  apply (non_exit_line_keeps_running "abc + 3"); discriminate.
Defined.

(** ** Division by zero *)

(** C3: for every left operand, dividing by a right operand that equals zero
    (either zero of the format) returns no value: [calculate] raises
    [ZeroDivisionError] with the text below, and a line of three tokens whose
    operator is [/] and whose right operand reads as zero makes the session
    print that text as a calculation error and go on. *)
Theorem division_by_zero_reported :
  (forall a b : float,
      (b =? 0)%float = true ->
      calculate a b "/" = Raise (ZeroDivisionError "Division by zero is not allowed."))
  /\ (forall (line a_str b_str : string) (a b : float) (rest : list string),
        split (strip line) = [a_str; "/"; b_str] ->
        float_of_str a_str = Return a ->
        float_of_str b_str = Return b ->
        (b =? 0)%float = true ->
        iteration line =
          (Running, [Print "Calculation error: Division by zero is not allowed."])
        /\ loop (line :: rest) =
             (Prompt prompt
                :: Print "Calculation error: Division by zero is not allowed."
                :: fst (loop rest),
              snd (loop rest))).
Proof.
  split; [exact calculate_div_zero|].
  intros line a_str b_str a b rest Hsplit Ha Hb Hzero.
  assert (Hit : iteration line =
                  (Running, [Print "Calculation error: Division by zero is not allowed."])).
  { rewrite (iteration_not_exit line (three_tokens_not_exit _ _ _ _ Hsplit)).
    rewrite (try_block_three_tokens _ _ _ _ Hsplit), Ha, Hb. simpl.
    now rewrite (calculate_div_zero a b Hzero). }
  split; [exact Hit | exact (loop_running _ _ rest Hit)].
Qed.

Lemma division_by_zero_reported_witness :
  calculate 10 0 "/" = Raise (ZeroDivisionError "Division by zero is not allowed.")
  /\ iteration "10 / 0" =
       (Running, [Print "Calculation error: Division by zero is not allowed."])
  /\ iteration " 1e3 / -0.0" =
       (Running, [Print "Calculation error: Division by zero is not allowed."]).
Proof.
  split; [exact (proj1 division_by_zero_reported 10%float 0%float eq_refl)|].
  split.
  - exact (proj1 (proj2 division_by_zero_reported "10 / 0" "10" "0"
                    10%float 0%float [] eq_refl eq_refl eq_refl eq_refl)).
  - exact (proj1 (proj2 division_by_zero_reported " 1e3 / -0.0" "1e3" "-0.0"
                    1000%float (-0)%float [] eq_refl eq_refl eq_refl eq_refl)).
Defined.

(** ** Unsupported operators *)

(** C4: for every operator text other than the four symbols and all
    operands, [calculate] raises [ValueError] whose text carries the
    operator, and a line of three tokens with such an operator and two
    readable operands makes the session print it as an input error. *)
Theorem unsupported_operator_reported (operator : string) :
  operator <> "+" -> operator <> "-" -> operator <> "*" -> operator <> "/" ->
  (forall a b : float,
      calculate a b operator = Raise (ValueError ("Unsupported operator: " ++ operator)))
  /\ (forall (line a_str b_str : string) (a b : float) (rest : list string),
        split (strip line) = [a_str; operator; b_str] ->
        float_of_str a_str = Return a ->
        float_of_str b_str = Return b ->
        iteration line =
          (Running, [Print ("Input error: Unsupported operator: " ++ operator)])
        /\ loop (line :: rest) =
             (Prompt prompt
                :: Print ("Input error: Unsupported operator: " ++ operator)
                :: fst (loop rest),
              snd (loop rest))).
Proof.
  intros Hadd Hsub Hmul Hdiv.
  split; [intros a b; now apply calculate_unsupported|].
  intros line a_str b_str a b rest Hsplit Ha Hb.
  assert (Hit : iteration line =
                  (Running, [Print ("Input error: Unsupported operator: " ++ operator)])).
  { rewrite (iteration_not_exit line (three_tokens_not_exit _ _ _ _ Hsplit)).
    rewrite (try_block_three_tokens _ _ _ _ Hsplit), Ha, Hb. simpl.
    now rewrite (calculate_unsupported a b operator Hadd Hsub Hmul Hdiv). }
  split; [exact Hit | exact (loop_running _ _ rest Hit)].
Qed.

Lemma unsupported_operator_reported_witness :
  ("^" <> "+" /\ "^" <> "-" /\ "^" <> "*" /\ "^" <> "/")
  /\ calculate 2 3 "^" = Raise (ValueError "Unsupported operator: ^")
  /\ iteration "2 ^ 3" = (Running, [Print "Input error: Unsupported operator: ^"]).
Proof.
  assert (Hadd : "^" <> "+") by discriminate.
  assert (Hsub : "^" <> "-") by discriminate.
  assert (Hmul : "^" <> "*") by discriminate.
  assert (Hdiv : "^" <> "/") by discriminate.
  split; [tauto|].
  destruct (unsupported_operator_reported "^" Hadd Hsub Hmul Hdiv) as [Hc Hs].
  split; [exact (Hc 2%float 3%float)|].
  exact (proj1 (Hs "2 ^ 3" "2" "3" 2%float 3%float [] eq_refl eq_refl eq_refl)).
Defined.

(** ** Exit commands *)

(** C5: a line whose trimmed form is [exit] or [quit] up to letter case makes
    the iteration print the farewell and nothing else, and ends the loop in
    [Terminated]: [main] returns with exit status 0 whatever lines are left
    on standard input. *)
Theorem exit_command_terminates (line : string) :
  lower (strip line) = "exit" \/ lower (strip line) = "quit" ->
  iteration line = (Terminated, [Print "Goodbye!"])
  /\ forall rest,
       loop (line :: rest) = ([Prompt prompt; Print "Goodbye!"], ReturnsNormally)
       /\ main (line :: rest) =
            ([Print banner; Prompt prompt; Print "Goodbye!"], ReturnsNormally)
       /\ exit_code (snd (main (line :: rest))) = 0%Z.
Proof.
  intro H. apply is_exit_command_iff in H.
  pose proof (iteration_exit line H) as Hit.
  split; [exact Hit|]. intro rest.
  pose proof (loop_terminated _ _ rest Hit) as Hloop.
  split; [exact Hloop|].
  unfold main. rewrite Hloop. now split.
Qed.

Lemma exit_command_terminates_witness :
  (lower (strip "  QuIt ") = "exit" \/ lower (strip "  QuIt ") = "quit")
  /\ iteration "  QuIt " = (Terminated, [Print "Goodbye!"])
  /\ forall rest,
       loop ("  QuIt " :: rest) = ([Prompt prompt; Print "Goodbye!"], ReturnsNormally)
       /\ main ("  QuIt " :: rest) =
            ([Print banner; Prompt prompt; Print "Goodbye!"], ReturnsNormally)
       /\ exit_code (snd (main ("  QuIt " :: rest))) = 0%Z.
Proof.
  split; [right; reflexivity|].
  exact (exit_command_terminates "  QuIt " (or_intror eq_refl)).
Defined.

(** ** Arithmetic *)

(** C6: when the right operand is not equal to zero, [calculate] with [/]
    returns the binary64 quotient of the operands. *)
Theorem division_returns_quotient (a b : float) :
  (b =? 0)%float = false ->
  calculate a b "/" = Return (a / b)%float.
Proof. exact (calculate_div_nonzero a b). Qed.

Lemma division_returns_quotient_witness :
  (2 =? 0)%float = false /\ calculate 7 2 "/" = Return 3.5%float.
Proof.
  split; [reflexivity|].
  exact (division_returns_quotient 7%float 2%float eq_refl).
Defined.

(** C7: for all operands, [calculate] with [+], [-] or [*] returns the
    binary64 sum, difference or product, whatever it is: an overflow comes
    back as an infinity and an invalid operation as a NaN. *)
Theorem add_sub_mul_are_native (a b : float) :
  calculate a b "+" = Return (a + b)%float
  /\ calculate a b "-" = Return (a - b)%float
  /\ calculate a b "*" = Return (a * b)%float.
Proof. repeat split. Qed.

(** ** Lines that do not have three tokens *)

(** C8: a line that is not an exit command and does not split into exactly
    three tokens prints the format message, whatever its tokens are, and the
    session stays in [Running]: the loop goes on with the lines that follow,
    none of which this iteration has read. *)
Theorem wrong_token_count_reported (line : string) :
  lower (strip line) <> "exit" ->
  lower (strip line) <> "quit" ->
  List.length (split (strip line)) <> 3%nat ->
  try_block (strip line) = Return [Print "Invalid format. Use: a operator b (e.g. 5 + 3)"]
  /\ iteration line =
       (Running, [Print "Invalid format. Use: a operator b (e.g. 5 + 3)"])
  /\ forall rest,
       loop (line :: rest) =
         (Prompt prompt
            :: Print "Invalid format. Use: a operator b (e.g. 5 + 3)"
            :: fst (loop rest),
          snd (loop rest)).
Proof.
  intros He Hq Hlen.
  assert (H : is_exit_command (strip line) = false).
  { destruct (is_exit_command (strip line)) eqn:E; [|reflexivity].
    apply is_exit_command_iff in E as [E | E]; contradiction. }
  pose proof (try_block_format_error _ Hlen) as Htry.
  assert (Hit : iteration line = (Running, [Print format_error])).
  { now rewrite (iteration_not_exit line H), Htry. }
  split; [exact Htry|]. split; [exact Hit|].
  intro rest. exact (loop_running _ _ rest Hit).
Qed.

Lemma wrong_token_count_reported_witness :
  (lower (strip "5 3") <> "exit"
   /\ lower (strip "5 3") <> "quit"
   /\ List.length (split (strip "5 3")) <> 3%nat)
  /\ iteration "5 3" =
       (Running, [Print "Invalid format. Use: a operator b (e.g. 5 + 3)"]).
Proof.
  assert (He : lower (strip "5 3") <> "exit") by discriminate.
  assert (Hq : lower (strip "5 3") <> "quit") by discriminate.
  assert (Hlen : List.length (split (strip "5 3")) <> 3%nat) by discriminate.
  split; [tauto|].
  exact (proj1 (proj2 (wrong_token_count_reported "5 3" He Hq Hlen))).
Defined.

(** ** The generic handler *)

(** C9: for all operands and every operator text, [calculate] returns a
    float, or raises the [ValueError] of an unsupported operator, or raises
    the [ZeroDivisionError] of a division by zero, and nothing else.  So for
    a line of three tokens whose operands [float] reads, the iteration prints
    the result or takes one of the first two [except] clauses: the clause for
    [Exception] and its [Unexpected error] line are out of reach. *)
Theorem unexpected_error_unreachable :
  (forall (a b : float) (operator : string),
      (exists r, calculate a b operator = Return r)
      \/ calculate a b operator = Raise (ValueError ("Unsupported operator: " ++ operator))
      \/ calculate a b operator =
           Raise (ZeroDivisionError "Division by zero is not allowed."))
  /\ (forall (line a_str operator b_str : string) (a b : float),
        split (strip line) = [a_str; operator; b_str] ->
        float_of_str a_str = Return a ->
        float_of_str b_str = Return b ->
        ((exists r, calculate a b operator = Return r
                    /\ iteration line = (Running, [Print ("Result: " ++ float_repr r)]))
         \/ (exists e, calculate a b operator = Raise e
                       /\ handler_of e <> ExceptException
                       /\ iteration line = (Running, handle e)))
        /\ forall msg,
             iteration line <> (Running, [Print ("Unexpected error: " ++ msg)])).
Proof.
  split; [exact calculate_cases|].
  intros line a_str operator b_str a b Hsplit Ha Hb.
  rewrite (iteration_not_exit line (three_tokens_not_exit _ _ _ _ Hsplit)).
  rewrite (try_block_three_tokens _ _ _ _ Hsplit), Ha, Hb. simpl.
  destruct (calculate a b operator) as [r | e] eqn:Hr; simpl.
  - split; [left; eauto|]. intros msg [=].
  - pose proof (calculate_raises _ _ _ _ Hr) as He.
    split; [right; eauto|].
    intros msg. unfold handle.
    destruct (handler_of e); [intros [=] | intros [=] | contradiction].
Qed.

Lemma unexpected_error_unreachable_witness :
  (split (strip "7 / 2") = ["7"; "/"; "2"]
   /\ float_of_str "7" = Return 7%float
   /\ float_of_str "2" = Return 2%float)
  /\ forall msg, iteration "7 / 2" <> (Running, [Print ("Unexpected error: " ++ msg)]).
Proof.
  split; [repeat split|].
  exact (proj2 (proj2 unexpected_error_unreachable "7 / 2" "7" "/" "2"
                  7%float 2%float eq_refl eq_refl eq_refl)).
Defined.

(** ** Operands that are not finite *)

(** C10: [float] reads [inf], [infinity] and [nan], in any letter case, as an
    infinity and a NaN instead of raising [ValueError]; the line [1 / nan]
    reaches [calculate], where NaN does not compare equal to zero, so the
    division is performed and the result line shows the value, [nan]. *)
Theorem non_finite_operands_accepted :
  (forall s, lower s = "inf" \/ lower s = "infinity" ->
             float_of_str s = Return infinity)
  /\ (forall s, lower s = "nan" -> float_of_str s = Return nan)
  /\ (nan =? 0)%float = false
  /\ calculate 1 nan "/" = Return nan
  /\ iteration "1 / nan" = (Running, [Print "Result: nan"])
  /\ iteration "INF * 2" = (Running, [Print "Result: inf"])
  /\ iteration "1 - Infinity" = (Running, [Print "Result: -inf"]).
Proof.
  split.
  { intros s [H | H]; letter_cases H; vm_compute; reflexivity. }
  split.
  { intros s H; letter_cases H; vm_compute; reflexivity. }
  repeat split.
Qed.

Lemma non_finite_operands_accepted_witness :
  lower "NaN" = "nan" /\ float_of_str "NaN" = Return nan.
Proof.
  split; [reflexivity|].
  exact (proj1 (proj2 non_finite_operands_accepted) "NaN" eq_refl).
Defined.

(** * Further properties of [calculate] and [main] *)

(** ** Tokens and whitespace *)

Section SplitFacts.

Lemma string_app_assoc (a b c : string) : (a ++ b) ++ c = a ++ b ++ c.
Proof. induction a as [|x a IH]; simpl; [reflexivity | now rewrite IH]. Qed.

Lemma rev_string_acc (w acc : string) :
  rev_string acc w = rev_string EmptyString w ++ acc.
Proof.
  revert acc. induction w as [|c w IH]; intro acc; simpl; [reflexivity|].
  rewrite (IH (String c acc)), (IH (String c EmptyString)).
  now rewrite string_app_assoc.
Qed.

Lemma append_nil_r (s : string) : s ++ EmptyString = s.
Proof. induction s as [|c s IH]; simpl; [reflexivity | now rewrite IH]. Qed.

Lemma rev_string_rev (s a b : string) :
  rev_string a (rev_string b s) = rev_string (s ++ a) b.
Proof.
  revert a b. induction s as [|c s IH]; intros a b; simpl; [reflexivity|].
  now rewrite IH.
Qed.

Lemma rev_string_involutive (s : string) :
  rev_string EmptyString (rev_string EmptyString s) = s.
Proof. rewrite rev_string_rev. simpl. apply append_nil_r. Qed.

Lemma rev_string_not_nil (word acc : string) :
  word <> EmptyString -> rev_string acc word <> EmptyString.
Proof.
  revert acc. induction word as [|c word IH]; intros acc H; [contradiction|].
  simpl. destruct word as [|c' word']; [discriminate|].
  apply IH. discriminate.
Qed.

(** A text that has no whitespace and is not empty is one token. *)
Lemma split_from_no_space (s word : string) :
  forallb (fun c => negb (isspace c)) (list_ascii_of_string s) = true ->
  split_from word s = flush (rev_string word s) [].
Proof.
  revert word. induction s as [|c s IH]; intros word H; simpl in *.
  - destruct word; reflexivity.
  - apply andb_true_iff in H as [Hc Hs]. apply negb_true_iff in Hc.
    rewrite Hc. now apply IH.
Qed.

Lemma split_no_space (s : string) :
  s <> EmptyString ->
  forallb (fun c => negb (isspace c)) (list_ascii_of_string s) = true ->
  split s = [s].
Proof.
  intros Hne H. unfold split. rewrite (split_from_no_space s EmptyString H).
  pose proof (rev_string_not_nil s EmptyString Hne) as Hrev.
  unfold flush. destruct (rev_string EmptyString s) eqn:E; [contradiction|].
  rewrite <- E. now rewrite rev_string_involutive.
Qed.

Lemma split_from_not_nil (s word : string) :
  word <> EmptyString -> split_from word s <> [].
Proof.
  revert word. induction s as [|c s IH]; intros word H; simpl.
  - destruct word; [contradiction | discriminate].
  - destruct (isspace c).
    + destruct word; [contradiction | discriminate].
    + apply IH. discriminate.
Qed.

(** No token at all: the text is made of whitespace, and conversely. *)
Lemma split_nil_spaces (s : string) :
  split s = [] -> forallb isspace (list_ascii_of_string s) = true.
Proof.
  unfold split. induction s as [|c s IH]; simpl; [reflexivity|].
  destruct (isspace c) eqn:Hc; simpl.
  - exact IH.
  - intro H. exfalso. revert H. apply split_from_not_nil. discriminate.
Qed.

Lemma spaces_split_nil (s : string) :
  forallb isspace (list_ascii_of_string s) = true -> split s = [].
Proof.
  unfold split. induction s as [|c s IH]; simpl; [reflexivity|].
  intro H. apply andb_true_iff in H as [Hc Hs]. rewrite Hc. simpl. now apply IH.
Qed.

Lemma lstrip_all_spaces (s : string) :
  forallb isspace (list_ascii_of_string s) = true -> lstrip s = EmptyString.
Proof.
  induction s as [|c s IH]; simpl; [reflexivity|].
  intro H. apply andb_true_iff in H as [Hc Hs]. rewrite Hc. now apply IH.
Qed.

Lemma rstrip_app_nonspace (x ws : string) (c : ascii) :
  isspace c = false ->
  forallb isspace (list_ascii_of_string ws) = true ->
  rstrip (x ++ String c ws) = x ++ String c EmptyString.
Proof.
  intros Hc Hws. induction x as [|a x IH]; simpl.
  - now rewrite (rstrip_all_spaces ws Hws), Hc.
  - rewrite IH. destruct x; reflexivity.
Qed.

(** The token being read, once it has a character, ends the only token. *)
Lemma split_from_single (s word w : string) (c : ascii) :
  isspace c = false ->
  split_from (String c word) s = [w] ->
  rstrip (rev_string EmptyString (String c word) ++ s) = w.
Proof.
  revert word c. induction s as [|d s IH]; intros word c Hc H.
  - simpl in H. injection H as <-. rewrite append_nil_r.
    simpl. rewrite rev_string_acc.
    exact (rstrip_app_nonspace _ EmptyString c Hc eq_refl).
  - cbn [split_from] in H. destruct (isspace d) eqn:Hd.
    + cbn [flush] in H. injection H as <- Hrest.
      apply split_nil_spaces in Hrest.
      cbn [rev_string]. rewrite rev_string_acc, string_app_assoc.
      cbn [append]. apply rstrip_app_nonspace; [exact Hc|].
      simpl. now rewrite Hd.
    + specialize (IH (String c word) d Hd H).
      rewrite <- IH. f_equal.
      cbn [rev_string]. rewrite (rev_string_acc word (String c (String d EmptyString))).
      rewrite (rev_string_acc word (String c EmptyString)).
      now rewrite !string_app_assoc.
Qed.

(** A text of one token is that token, up to the whitespace at its ends. *)
Lemma split_single_strip (s w : string) : split s = [w] -> strip s = w.
Proof.
  unfold split, strip. induction s as [|c s IH]; simpl; [discriminate|].
  destruct (isspace c) eqn:Hc; simpl; [exact IH|].
  intro H. exact (split_from_single s EmptyString w c Hc H).
Qed.

Lemma rstrip_idem (s : string) : rstrip (rstrip s) = rstrip s.
Proof.
  induction s as [|c s IH]; simpl; [reflexivity|].
  destruct (rstrip s) as [|a r] eqn:E.
  - destruct (isspace c) eqn:Hc; simpl; [reflexivity | now rewrite Hc].
  - cbn [rstrip]. cbn [rstrip] in IH. now rewrite IH.
Qed.

Lemma lstrip_head (s : string) :
  lstrip s = EmptyString
  \/ exists c t, lstrip s = String c t /\ isspace c = false.
Proof.
  induction s as [|c s IH]; simpl; [now left|].
  destruct (isspace c) eqn:Hc; [exact IH | right; eauto].
Qed.

Lemma strip_idem (s : string) : strip (strip s) = strip s.
Proof.
  unfold strip. destruct (lstrip_head s) as [-> | (c & t & -> & Hc)]; [reflexivity|].
  assert (H : lstrip (rstrip (String c t)) = rstrip (String c t)).
  { simpl. destruct (rstrip t); rewrite ?Hc; simpl; rewrite ?Hc; reflexivity. }
  rewrite H. apply rstrip_idem.
Qed.

Lemma strip_all_spaces (s : string) :
  forallb isspace (list_ascii_of_string s) = true -> strip s = EmptyString.
Proof. intro H. unfold strip. now rewrite (lstrip_all_spaces s H). Qed.

Lemma last_char_no_space (s : string) (c : ascii) :
  forallb (fun c => negb (isspace c)) (list_ascii_of_string (String c s)) = true ->
  isspace (last_char c s) = false.
Proof.
  revert c. induction s as [|d s IH]; intros c H.
  - simpl in *. now destruct (isspace c).
  - apply IH. simpl in H. apply andb_true_iff in H. tauto.
Qed.

Lemma strip_no_space (s : string) :
  forallb (fun c => negb (isspace c)) (list_ascii_of_string s) = true ->
  strip s = s.
Proof.
  destruct s as [|c s]; [reflexivity|]. intro H.
  pose proof (last_char_no_space s c H) as Hl.
  simpl in H. apply andb_true_iff in H as [Hc _]. apply negb_true_iff in Hc.
  pose proof (strip_padded EmptyString EmptyString s c eq_refl eq_refl Hc Hl) as Hs.
  simpl in Hs. now rewrite append_nil_r in Hs.
Qed.

End SplitFacts.

(** ** One line *)

Section LineFacts.

Lemma not_exit_command (s : string) :
  lower s <> "exit" -> lower s <> "quit" -> is_exit_command s = false.
Proof.
  intros He Hq. destruct (is_exit_command s) eqn:E; [|reflexivity].
  apply is_exit_command_iff in E as [E | E]; contradiction.
Qed.

(** The only exception of [float] and its text. *)
Lemma float_of_str_error (s : string) (e : exception) :
  float_of_str s = Raise e ->
  e = ValueError ("could not convert string to float: " ++ repr s).
Proof.
  unfold float_of_str.
  destruct (match remove_underscores _ _ with Some t => _ | None => None end);
    [discriminate | now intros [= <-]].
Qed.

Lemma iteration_three_tokens (line a_str operator b_str : string) :
  split (strip line) = [a_str; operator; b_str] ->
  iteration line =
    (Running,
     match (a <- float_of_str a_str ;;
            b <- float_of_str b_str ;;
            r <- calculate a b operator ;;
            Return [Print ("Result: " ++ float_repr r)]) with
     | Return out => out
     | Raise e => handle e
     end).
Proof.
  intro Hsplit.
  rewrite (iteration_not_exit line (three_tokens_not_exit _ _ _ _ Hsplit)).
  now rewrite (try_block_three_tokens _ _ _ _ Hsplit).
Qed.

Lemma try_block_same_tokens (u1 u2 : string) :
  split u1 = split u2 -> try_block u1 = try_block u2.
Proof. intro H. unfold try_block. now rewrite H. Qed.

Lemma iteration_same_strip (l1 l2 : string) :
  strip l1 = strip l2 -> iteration l1 = iteration l2.
Proof. intro H. unfold iteration. now rewrite H. Qed.

(** What the iteration on a line prints: one line, of one of six forms. *)
Lemma iteration_message_forms (line : string) :
  exists msg,
    snd (iteration line) = [Print msg]
    /\ (msg = farewell
        \/ msg = format_error
        \/ (exists r, msg = "Result: " ++ float_repr r)
        \/ (exists tok, In tok (split (strip line))
                        /\ msg = "Input error: could not convert string to float: "
                                   ++ repr tok)
        \/ (exists tok, In tok (split (strip line))
                        /\ msg = "Input error: Unsupported operator: " ++ tok)
        \/ msg = "Calculation error: Division by zero is not allowed.").
Proof.
  destruct (is_exit_command (strip line)) eqn:Hexit.
  { rewrite (iteration_exit line Hexit). eexists. split; [reflexivity | now left]. }
  rewrite (iteration_not_exit line Hexit). cbn [snd]. unfold try_block.
  destruct (negb (List.length (split (strip line)) =? 3)%nat) eqn:Hlen.
  { eexists. split; [reflexivity | right; now left]. }
  destruct (split (strip line)) as [|a_str [|operator [|b_str [|x parts]]]];
    try discriminate Hlen.
  simpl.
  destruct (float_of_str a_str) as [a | e] eqn:Ha; simpl.
  2:{ rewrite (float_of_str_error _ _ Ha). eexists. split; [reflexivity|].
      do 3 right. left. exists a_str. split; [now left | reflexivity]. }
  destruct (float_of_str b_str) as [b | e] eqn:Hb; simpl.
  2:{ rewrite (float_of_str_error _ _ Hb). eexists. split; [reflexivity|].
      do 3 right. left. exists b_str. split; [right; right; now left | reflexivity]. }
  destruct (calculate_cases a b operator) as [[r ->] | [-> | ->]]; simpl.
  - eexists. split; [reflexivity|]. do 2 right. left. eauto.
  - eexists. split; [reflexivity|]. do 4 right. left.
    exists operator. split; [right; now left | reflexivity].
  - eexists. split; [reflexivity|]. do 5 right. reflexivity.
Qed.

End LineFacts.

(** ** The whole session *)

Section SessionFacts.

(** A property of every prompt and of every line an iteration prints holds
    of all that the loop writes. *)
Lemma loop_output_forall (P : output -> Prop) :
  P (Prompt prompt) ->
  (forall line, Forall P (snd (iteration line))) ->
  forall stdin, Forall P (fst (loop stdin)).
Proof.
  intros Hprompt Hline. induction stdin as [|line rest IH].
  - repeat constructor. exact Hprompt.
  - specialize (Hline line). destruct (iteration line) as [[] out] eqn:E.
    + rewrite (loop_running _ _ rest E). cbn [fst].
      constructor; [exact Hprompt|]. apply Forall_app. now split.
    + rewrite (loop_terminated _ _ rest E). cbn [fst].
      constructor; [exact Hprompt | exact Hline].
Qed.

Lemma loop_app (before rest : list string) :
  Forall (fun l => is_exit_command (strip l) = false) before ->
  loop (before ++ rest) =
    ((flat_map (fun l => Prompt prompt :: snd (iteration l)) before
        ++ fst (loop rest))%list,
     snd (loop rest)).
Proof.
  induction 1 as [|l before Hl _ IH]; simpl app.
  - simpl. now destruct (loop rest).
  - pose proof (iteration_not_exit l Hl) as Hit.
    rewrite (loop_running _ _ _ Hit), IH. cbn [fst snd flat_map].
    rewrite Hit. cbn [snd]. now rewrite <- !app_assoc.
Qed.

End SessionFacts.

(** ** Results of [calculate] *)

(** X1: a line of three tokens whose operands [float] reads prints, for each
    of the four operators, [Result:] followed by the text of the binary64
    sum, difference, product or (for a divisor that is not zero) quotient. *)
Theorem arithmetic_result_printed (line a_str b_str : string) (a b : float) :
  float_of_str a_str = Return a ->
  float_of_str b_str = Return b ->
  (split (strip line) = [a_str; "+"; b_str] ->
   iteration line = (Running, [Print ("Result: " ++ float_repr (a + b))]))
  /\ (split (strip line) = [a_str; "-"; b_str] ->
      iteration line = (Running, [Print ("Result: " ++ float_repr (a - b))]))
  /\ (split (strip line) = [a_str; "*"; b_str] ->
      iteration line = (Running, [Print ("Result: " ++ float_repr (a * b))]))
  /\ (split (strip line) = [a_str; "/"; b_str] ->
      (b =? 0)%float = false ->
      iteration line = (Running, [Print ("Result: " ++ float_repr (a / b))])).
Proof.
  intros Ha Hb. repeat split; intro Hsplit;
    rewrite (iteration_three_tokens _ _ _ _ Hsplit), Ha, Hb; simpl;
    [reflexivity .. |].
  intro Hzero. now rewrite (calculate_div_nonzero a b Hzero).
Qed.

Lemma arithmetic_result_printed_witness :
  (float_of_str "7" = Return 7%float /\ float_of_str "2" = Return 2%float)
  /\ iteration "7 * 2" = (Running, [Print "Result: 14.0"])
  /\ iteration " 7  / 2" = (Running, [Print "Result: 3.5"]).
Proof.
  split; [split; reflexivity|].
  pose proof (arithmetic_result_printed "7 * 2" "7" "2" 7%float 2%float
                eq_refl eq_refl) as (_ & _ & Hmul & _).
  pose proof (arithmetic_result_printed " 7  / 2" "7" "2" 7%float 2%float
                eq_refl eq_refl) as (_ & _ & _ & Hdiv).
  split; [exact (Hmul eq_refl) | exact (Hdiv eq_refl eq_refl)].
Defined.

(** X2: [calculate] returns a value exactly when the operator is [+], [-]
    or [*], or is [/] with a right operand that does not equal zero. *)
Theorem calculate_returns_iff (a b : float) (operator : string) :
  (exists r, calculate a b operator = Return r)
  <-> operator = "+" \/ operator = "-" \/ operator = "*"
      \/ (operator = "/" /\ (b =? 0)%float = false).
Proof.
  unfold calculate, float_add, float_sub, float_mul, float_truediv, eq_int_zero.
  destruct (String.eqb_spec operator "+") as [-> | Hadd]; [split; eauto|].
  destruct (String.eqb_spec operator "-") as [-> | Hsub]; [split; eauto|].
  destruct (String.eqb_spec operator "*") as [-> | Hmul]; [split; eauto 6|].
  destruct (String.eqb_spec operator "/") as [-> | Hdiv].
  - destruct (b =? 0)%float.
    + split; [intros [r [=]] | intros [[=] | [[=] | [[=] | [_ [=]]]]]].
    + split; eauto 6.
  - split; [intros [r [=]] | intros [? | [? | [? | [? _]]]]; contradiction].
Qed.

(** X3: [calculate] raises [ZeroDivisionError] exactly when the operator is
    [/] and the right operand equals zero, and then with its own text: a
    zero right operand is no error for the other operators, and the text of
    the language's own division error never comes out of [calculate]. *)
Theorem calculate_zero_division_iff (a b : float) (operator msg : string) :
  calculate a b operator = Raise (ZeroDivisionError msg)
  <-> operator = "/" /\ (b =? 0)%float = true
      /\ msg = "Division by zero is not allowed.".
Proof.
  unfold calculate, float_add, float_sub, float_mul, float_truediv, eq_int_zero.
  destruct (String.eqb_spec operator "+") as [-> | Hadd];
    [split; [intros [=] | intros [[=] _]]|].
  destruct (String.eqb_spec operator "-") as [-> | Hsub];
    [split; [intros [=] | intros [[=] _]]|].
  destruct (String.eqb_spec operator "*") as [-> | Hmul];
    [split; [intros [=] | intros [[=] _]]|].
  destruct (String.eqb_spec operator "/") as [-> | Hdiv].
  - destruct (b =? 0)%float.
    + split; [intros [= <-]; auto | intros (_ & _ & ->); reflexivity].
    + split; [intros [=] | intros (_ & [=] & _)].
  - split; [intros [=] | intros [? _]; contradiction].
Qed.

(** ** Operands that [float] cannot read *)

(** X4: when the first token of a three-token line is not a number, the
    session prints the input error of [float] with that token quoted,
    whatever the operator and the third token are (an unsupported operator
    or a zero divisor is not looked at), and goes on. *)
Theorem left_operand_error_reported
    (line a_str operator b_str : string) (e : exception) :
  split (strip line) = [a_str; operator; b_str] ->
  float_of_str a_str = Raise e ->
  iteration line =
    (Running,
     [Print ("Input error: could not convert string to float: " ++ repr a_str)]).
Proof.
  intros Hsplit Ha.
  rewrite (iteration_three_tokens _ _ _ _ Hsplit), Ha.
  now rewrite (float_of_str_error _ _ Ha).
Qed.

Lemma left_operand_error_reported_witness :
  iteration "abc ^ 0" =
    (Running, [Print "Input error: could not convert string to float: 'abc'"]).
Proof.
  exact (left_operand_error_reported "abc ^ 0" "abc" "^" "0" _ eq_refl eq_refl).
Defined.

(** X5: when the first token is a number and the third is not, the session
    prints the input error of [float] with the third token quoted, whatever
    the operator is, and goes on. *)
Theorem right_operand_error_reported
    (line a_str operator b_str : string) (a : float) (e : exception) :
  split (strip line) = [a_str; operator; b_str] ->
  float_of_str a_str = Return a ->
  float_of_str b_str = Raise e ->
  iteration line =
    (Running,
     [Print ("Input error: could not convert string to float: " ++ repr b_str)]).
Proof.
  intros Hsplit Ha Hb.
  rewrite (iteration_three_tokens _ _ _ _ Hsplit), Ha, Hb.
  now rewrite (float_of_str_error _ _ Hb).
Qed.

Lemma right_operand_error_reported_witness :
  iteration "1 ^ 2x" =
    (Running, [Print "Input error: could not convert string to float: '2x'"]).
Proof.
  exact (right_operand_error_reported "1 ^ 2x" "1" "^" "2x" 1%float _
           eq_refl eq_refl eq_refl).
Defined.

(** ** Whitespace and tokens *)

(** X6: the answer to a line depends on its tokens only: two lines that
    split into the same tokens, whatever whitespace separates or surrounds
    them, leave the session in the same state and print the same. *)
Theorem tokens_determine_response (l1 l2 : string) :
  split (strip l1) = split (strip l2) ->
  iteration l1 = iteration l2.
Proof.
  intro H.
  assert (Hexit : forall x y, split (strip x) = split (strip y) ->
                              is_exit_command (strip x) = true ->
                              strip x = strip y).
  { intros x y Hxy Hx. apply exit_command_single_token in Hx.
    rewrite Hx in Hxy. symmetry in Hxy. apply split_single_strip in Hxy.
    now rewrite strip_idem in Hxy. }
  destruct (is_exit_command (strip l1)) eqn:E1.
  { apply iteration_same_strip. now apply Hexit. }
  destruct (is_exit_command (strip l2)) eqn:E2.
  { apply iteration_same_strip. symmetry. now apply Hexit. }
  rewrite (iteration_not_exit l1 E1), (iteration_not_exit l2 E2).
  now rewrite (try_block_same_tokens _ _ H).
Qed.

Lemma tokens_determine_response_witness :
  split (strip "5 + 3") = split (strip (String (ascii_of_nat 9) "5  +   3  "))
  /\ iteration "5 + 3" = iteration (String (ascii_of_nat 9) "5  +   3  ").
Proof.
  split; [reflexivity|].
  exact (tokens_determine_response "5 + 3" (String (ascii_of_nat 9) "5  +   3  ")
           eq_refl).
Defined.

(** X7: an empty line, or one made of whitespace only, has no token: the
    session prints the format message and goes on. *)
Theorem blank_line_format_error (line : string) :
  forallb isspace (list_ascii_of_string line) = true ->
  iteration line = (Running, [Print "Invalid format. Use: a operator b (e.g. 5 + 3)"]).
Proof.
  intro H. unfold iteration. now rewrite (strip_all_spaces line H).
Qed.

Lemma blank_line_format_error_witness :
  iteration EmptyString =
    (Running, [Print "Invalid format. Use: a operator b (e.g. 5 + 3)"])
  /\ iteration "    " =
       (Running, [Print "Invalid format. Use: a operator b (e.g. 5 + 3)"]).
Proof.
  split.
  - exact (blank_line_format_error EmptyString eq_refl).
  - exact (blank_line_format_error "    " eq_refl).
Defined.

(** X8: operands and operator must be separated by whitespace: a line with
    no whitespace in it that is not an exit keyword is a single token, and
    the session prints the format message, whatever the text is. *)
Theorem unspaced_line_format_error (line : string) :
  forallb (fun c => negb (isspace c)) (list_ascii_of_string line) = true ->
  lower line <> "exit" ->
  lower line <> "quit" ->
  iteration line = (Running, [Print "Invalid format. Use: a operator b (e.g. 5 + 3)"]).
Proof.
  intros Hns He Hq.
  pose proof (strip_no_space line Hns) as Hstrip.
  assert (Hexit : is_exit_command (strip line) = false).
  { rewrite Hstrip. now apply not_exit_command. }
  rewrite (iteration_not_exit line Hexit), Hstrip.
  destruct line as [|c s]; [reflexivity|].
  rewrite try_block_format_error; [reflexivity|].
  rewrite (split_no_space (String c s)); [discriminate | discriminate | exact Hns].
Qed.

Lemma unspaced_line_format_error_witness :
  iteration "5+3" = (Running, [Print "Invalid format. Use: a operator b (e.g. 5 + 3)"]).
Proof.
  apply (unspaced_line_format_error "5+3"); [reflexivity | discriminate | discriminate].
Defined.

(** X9: an exit keyword counts only when it is the whole line: a line that
    does not split into exactly one token never ends the session. *)
Theorem exit_keyword_must_stand_alone (line : string) :
  List.length (split (strip line)) <> 1%nat ->
  fst (iteration line) = Running.
Proof.
  intro Hlen. destruct (is_exit_command (strip line)) eqn:E.
  - apply exit_command_single_token in E. rewrite E in Hlen. now elim Hlen.
  - now rewrite (iteration_not_exit line E).
Qed.

Lemma exit_keyword_must_stand_alone_witness :
  fst (iteration "exit now") = Running /\ fst (iteration "quit 1 2") = Running.
Proof.
  split.
  - apply (exit_keyword_must_stand_alone "exit now"). discriminate.
  - apply (exit_keyword_must_stand_alone "quit 1 2"). discriminate.
Defined.

(** ** What a line can print *)

(** X10: whatever the line, the iteration prints exactly one line, and it is
    the farewell, the format message, a result, the input error of [float]
    quoting one of the line's tokens, the input error naming one of the
    line's tokens as unsupported operator, or the division-by-zero error. *)
Theorem response_is_classified (line : string) :
  exists msg,
    snd (iteration line) = [Print msg]
    /\ (msg = "Goodbye!"
        \/ msg = "Invalid format. Use: a operator b (e.g. 5 + 3)"
        \/ (exists r, msg = "Result: " ++ float_repr r)
        \/ (exists tok, In tok (split (strip line))
                        /\ msg = "Input error: could not convert string to float: "
                                   ++ repr tok)
        \/ (exists tok, In tok (split (strip line))
                        /\ msg = "Input error: Unsupported operator: " ++ tok)
        \/ msg = "Calculation error: Division by zero is not allowed.").
Proof. exact (iteration_message_forms line). Qed.

(** ** The whole session *)

(** X11: how [main] ends is decided by the presence of an exit command on
    standard input: with one it returns, without one the [EOFError] of
    [input] leaves it. *)
Theorem main_termination (stdin : list string) :
  snd (main stdin) =
    if existsb (fun line => is_exit_command (strip line)) stdin
    then ReturnsNormally
    else UncaughtException (EOFError "EOF when reading a line").
Proof.
  assert (Hmain : snd (main stdin) = snd (loop stdin)).
  { unfold main. now destruct (loop stdin). }
  rewrite Hmain. clear Hmain.
  induction stdin as [|line rest IH]; [reflexivity|].
  cbn [existsb]. destruct (is_exit_command (strip line)) eqn:E.
  - now rewrite (loop_terminated _ _ rest (iteration_exit line E)).
  - rewrite (loop_running _ _ rest (iteration_not_exit line E)). exact IH.
Qed.

(** X12: the transcript of a session that runs into the end of input: the
    banner, then for each line in order a prompt and the answer to that line
    alone, then the prompt of the read that fails. *)
Theorem transcript_without_exit (stdin : list string) :
  Forall (fun line => is_exit_command (strip line) = false) stdin ->
  main stdin =
    ((Print banner
        :: flat_map (fun line => Prompt prompt :: snd (iteration line)) stdin
        ++ [Prompt prompt])%list,
     UncaughtException (EOFError "EOF when reading a line")).
Proof.
  intro H. unfold main.
  pose proof (loop_app stdin [] H) as Happ. rewrite app_nil_r in Happ.
  now rewrite Happ.
Qed.

Lemma transcript_without_exit_witness :
  Forall (fun line => is_exit_command (strip line) = false) ["5 + 3"; "5 3"]
  /\ main ["5 + 3"; "5 3"] =
       ([Print banner;
         Prompt prompt; Print "Result: 8.0";
         Prompt prompt; Print "Invalid format. Use: a operator b (e.g. 5 + 3)";
         Prompt prompt],
        UncaughtException (EOFError "EOF when reading a line")).
Proof.
  assert (H : Forall (fun line => is_exit_command (strip line) = false)
                     ["5 + 3"; "5 3"]) by (repeat constructor).
  split; [exact H | exact (transcript_without_exit ["5 + 3"; "5 3"] H)].
Defined.

(** X13: the transcript of a session with an exit command: the banner, a
    prompt and the answer for each line before the first exit command, a
    prompt and the farewell; [main] returns, and the lines after the exit
    command are never read, so they change nothing. *)
Theorem transcript_until_exit (before : list string) (line : string) (rest : list string) :
  Forall (fun l => is_exit_command (strip l) = false) before ->
  is_exit_command (strip line) = true ->
  main (before ++ line :: rest) =
    ((Print banner
        :: flat_map (fun l => Prompt prompt :: snd (iteration l)) before
        ++ [Prompt prompt; Print "Goodbye!"])%list,
     ReturnsNormally).
Proof.
  intros Hbefore Hline. unfold main.
  rewrite (loop_app before (line :: rest) Hbefore).
  now rewrite (loop_terminated _ _ rest (iteration_exit line Hline)).
Qed.

Lemma transcript_until_exit_witness :
  main (["7 / 2"; "2 ^ 3"] ++ "Quit" :: ["1 + 1"; "exit"]) =
    ([Print banner;
      Prompt prompt; Print "Result: 3.5";
      Prompt prompt; Print "Input error: Unsupported operator: ^";
      Prompt prompt; Print "Goodbye!"],
     ReturnsNormally).
Proof.
  assert (H : Forall (fun l => is_exit_command (strip l) = false) ["7 / 2"; "2 ^ 3"])
    by (repeat constructor).
  exact (transcript_until_exit ["7 / 2"; "2 ^ 3"] "Quit" ["1 + 1"; "exit"] H eq_refl).
Defined.

(** X14: no input makes the session print an [Unexpected error] line: the
    clause for [Exception] is never taken, whatever the lines of standard
    input are. *)
Theorem unexpected_error_never_printed (stdin : list string) (msg : string) :
  ~ In (Print ("Unexpected error: " ++ msg)) (fst (main stdin)).
Proof.
  assert (H : Forall (fun o => forall m, o <> Print ("Unexpected error: " ++ m))
                     (fst (loop stdin))).
  { apply loop_output_forall; [discriminate|].
    intro line.
    destruct (iteration_message_forms line)
      as (m & -> & [-> | [-> | [[r ->] | [(t & _ & ->) | [(t & _ & ->) | ->]]]]]);
      repeat constructor; discriminate. }
  unfold main. destruct (loop stdin) as [out t]. cbn [fst] in *.
  intros [Hin | Hin]; [discriminate|].
  rewrite Forall_forall in H. exact (H _ Hin msg eq_refl).
Qed.

(** X15: the banner is the first thing written and is written once. *)
Theorem banner_written_once (stdin : list string) :
  exists out,
    fst (main stdin) = Print banner :: out /\ ~ In (Print banner) out.
Proof.
  assert (H : Forall (fun o => o <> Print banner) (fst (loop stdin))).
  { apply loop_output_forall; [discriminate|].
    intro line.
    destruct (iteration_message_forms line)
      as (m & -> & [-> | [-> | [[r ->] | [(t & _ & ->) | [(t & _ & ->) | ->]]]]]);
      repeat constructor; discriminate. }
  unfold main. destruct (loop stdin) as [out t]. cbn [fst] in *.
  exists out. split; [reflexivity|].
  intro Hin. rewrite Forall_forall in H. exact (H _ Hin eq_refl).
Qed.

Lemma exit_command_padded_witness :
  iteration (String (ascii_of_nat 9) "  eXiT " ++ String (ascii_of_nat 160) EmptyString)
  = (Terminated, [Print farewell]).
Proof.
  exact (exit_command_padded (String (ascii_of_nat 9) "  ") "eXiT"
           (String " " (String (ascii_of_nat 160) EmptyString))
           eq_refl eq_refl (or_introl eq_refl)).
Defined.
